(** * Opus encoder bindings

    A shallow embedding of the two native layers of the library:

    - [android/src/main/cpp/opus_jni_wrapper.cpp]: the JNI entry points
      [nativeCreate], [nativeEncode] and [nativeDestroy];
    - [ios/opus_ctl_helpers.c]: the non-variadic wrappers around
      [opus_encoder_ctl].

    Both layers are glue around two foreign interfaces, libopus and the JNI
    function table.  Their calls are the effects of the program: they are
    modelled as operations of a state monad over a [world] that holds the
    codec instances, the Java heap and the trace of every foreign call made
    so far.  What the foreign side answers is not decided by this code, so it
    is a parameter: a [platform] record of oracles. *)

From Stdlib Require Import ZArith String List Lia Bool.
From Stdlib Require Import Init.Byte.
From stdpp Require Import base gmap list.
Import ListNotations.
Local Open Scope string_scope.
Local Open Scope list_scope.
Local Open Scope Z_scope.

(** ** The foreign interfaces *)

(** Request codes of [opus_encoder_ctl] that the sources use.  The macro
    [OPUS_SET_X(v)] of [opus.h] expands to the two arguments
    [OPUS_SET_X_REQUEST, v]. *)
Inductive ctl_request : Type :=
  | OPUS_SET_BITRATE_REQUEST
  | OPUS_SET_DRED_DURATION_REQUEST
  | OPUS_SET_VBR_REQUEST
  | OPUS_SET_COMPLEXITY_REQUEST
  | OPUS_SET_INBAND_FEC_REQUEST
  | OPUS_SET_DTX_REQUEST.

Inductive log_priority : Type :=
  | ANDROID_LOG_INFO
  | ANDROID_LOG_ERROR.

(** Release modes of [Release<Type>ArrayElements] ([jni.h]). *)
Inductive release_mode : Type :=
  | JNI_COPY_BACK   (* mode 0: copy back and free the buffer *)
  | JNI_COMMIT      (* copy back, keep the buffer *)
  | JNI_ABORT.      (* free the buffer, do not copy back *)

(** One foreign call, with its arguments and what it answered.  Pointers,
    object references and [jlong] handles are integers, null being [0]. *)
Inductive event : Type :=
  | opus_encoder_create_ev (Fs channels application : Z) (st error : Z)
  | opus_encoder_ctl_ev (st : Z) (request : ctl_request) (value : Z) (ret : Z)
  | opus_encode_ev (st : Z) (pcm : list Z) (frame_size max_data_bytes : Z)
                   (ret : Z) (data : list byte)
  | opus_encoder_destroy_ev (st : Z)
  | android_log_print_ev (prio : log_priority) (tag fmt : string) (args : list Z)
  | GetShortArrayElements_ev (array elems : Z)
  | ReleaseShortArrayElements_ev (array elems : Z) (mode : release_mode)
  | NewByteArray_ev (len : Z) (array : Z)
  | SetByteArrayRegion_ev (array start len : Z) (buf : list byte).

Record world : Type := World {
  encoders : gset Z;             (* codec instances created and not yet destroyed *)
  jshorts : gmap Z (list Z);     (* Java short[] objects, by reference *)
  jbytes : gmap Z (list byte);   (* Java byte[] objects, by reference *)
  elems : gmap Z (list Z);       (* native buffers handed out by GetShortArrayElements *)
  trace : list event             (* foreign calls so far, oldest first *)
}.

(** What the foreign side answers.  Every oracle sees the whole world, the
    trace included, so a codec with internal state is covered.  [OPUS_OK]
    and [OPUS_APPLICATION_VOIP] are the constants of libopus' headers; the
    sources use them by name only, so their values are left open. *)
Record platform : Type := Platform {
  OPUS_OK : Z;
  OPUS_APPLICATION_VOIP : Z;
  (* encoder address and error code *)
  codec_create : world -> Z -> Z -> Z -> Z * Z;
  codec_ctl : world -> Z -> ctl_request -> Z -> Z;
  (* return value and contents of the output buffer when the call returns *)
  codec_encode : world -> Z -> list Z -> Z -> Z -> Z * list byte;
  (* the JVM cannot serve the allocation requested in this world *)
  jvm_exhausted : world -> bool
}.

(** ** The monad of foreign calls *)

Definition M (A : Type) : Type := world -> A * world.

#[global] Instance M_ret : MRet M := fun A x w => (x, w).
#[global] Instance M_bind : MBind M := fun A B k m w =>
  let '(x, w') := m w in k x w'.

Definition emit (e : event) (w : world) : world :=
  World (encoders w) (jshorts w) (jbytes w) (elems w) (trace w ++ [e]).

(** An address or reference that is neither null nor in use. *)
Definition fresh_ref (used : gset Z) : Z :=
  fresh ({[0]} ∪ used).

Section Bindings.

Context (P : platform).

(** *** android/log.h *)

Definition __android_log_print (prio : log_priority) (tag fmt : string)
    (args : list Z) : M unit :=
  fun w => (tt, emit (android_log_print_ev prio tag fmt args) w).

(** *** opus.h *)

Definition OPUS_SET_BITRATE (x : Z) : ctl_request * Z := (OPUS_SET_BITRATE_REQUEST, x).
Definition OPUS_SET_DRED_DURATION (x : Z) : ctl_request * Z := (OPUS_SET_DRED_DURATION_REQUEST, x).
Definition OPUS_SET_VBR (x : Z) : ctl_request * Z := (OPUS_SET_VBR_REQUEST, x).
Definition OPUS_SET_COMPLEXITY (x : Z) : ctl_request * Z := (OPUS_SET_COMPLEXITY_REQUEST, x).
Definition OPUS_SET_INBAND_FEC (x : Z) : ctl_request * Z := (OPUS_SET_INBAND_FEC_REQUEST, x).
Definition OPUS_SET_DTX (x : Z) : ctl_request * Z := (OPUS_SET_DTX_REQUEST, x).

(** [OpusEncoder *opus_encoder_create(Fs, channels, application, int *error)]:
    the encoder and the value stored through [error]. *)
Definition opus_encoder_create (Fs channels application : Z) : M (Z * Z) :=
  fun w =>
    let '(st, error) := codec_create P w Fs channels application in
    ((st, error),
     emit (opus_encoder_create_ev Fs channels application st error)
       (World (if st =? 0 then encoders w else {[st]} ∪ encoders w)
              (jshorts w) (jbytes w) (elems w) (trace w))).

(** [int opus_encoder_ctl(OpusEncoder *st, int request, ...)] *)
Definition opus_encoder_ctl (st : Z) (rv : ctl_request * Z) : M Z :=
  fun w =>
    let ret := codec_ctl P w st rv.1 rv.2 in
    (ret, emit (opus_encoder_ctl_ev st rv.1 rv.2 ret) w).

(** [opus_int32 opus_encode(st, const opus_int16 *pcm, frame_size,
    unsigned char *data, max_data_bytes)]: the samples are read through
    [pcm]; the result is the return value with the contents of [data]. *)
Definition opus_encode (st pcm frame_size max_data_bytes : Z) : M (Z * list byte) :=
  fun w =>
    let samples := default [] (elems w !! pcm) in
    let '(ret, data) := codec_encode P w st samples frame_size max_data_bytes in
    ((ret, data),
     emit (opus_encode_ev st samples frame_size max_data_bytes ret data) w).

(** [void opus_encoder_destroy(OpusEncoder *st)] *)
Definition opus_encoder_destroy (st : Z) : M unit :=
  fun w =>
    (tt, emit (opus_encoder_destroy_ev st)
           (World (encoders w ∖ {[st]}) (jshorts w) (jbytes w) (elems w) (trace w))).

(** *** jni.h

    The part of the JNI function table the wrapper calls.  A reference that
    names no array of the expected type is answered like a failed request. *)

(** [jshort *GetShortArrayElements(jshortArray array, jboolean *isCopy)]:
    a native buffer holding the elements, or null.  The buffer is only read
    while it is held, so a pinned array and a copy behave alike. *)
Definition GetShortArrayElements (array : Z) : M Z :=
  fun w =>
    match jshorts w !! array with
    | Some samples =>
        if jvm_exhausted P w then (0, emit (GetShortArrayElements_ev array 0) w)
        else
          let p := fresh_ref (dom (elems w)) in
          (p, emit (GetShortArrayElements_ev array p)
                (World (encoders w) (jshorts w) (jbytes w)
                       (<[p := samples]> (elems w)) (trace w)))
    | None => (0, emit (GetShortArrayElements_ev array 0) w)
    end.

(** [void ReleaseShortArrayElements(jshortArray array, jshort *elems, jint mode)] *)
Definition ReleaseShortArrayElements (array p : Z) (mode : release_mode) : M unit :=
  fun w =>
    match elems w !! p with
    | Some buf =>
        let js := match mode with
                  | JNI_ABORT => jshorts w
                  | _ => <[array := buf]> (jshorts w)
                  end in
        let el := match mode with
                  | JNI_COMMIT => elems w
                  | _ => delete p (elems w)
                  end in
        (tt, emit (ReleaseShortArrayElements_ev array p mode)
               (World (encoders w) js (jbytes w) el (trace w)))
    | None => (tt, emit (ReleaseShortArrayElements_ev array p mode) w)
    end.

(** [jbyteArray NewByteArray(jsize length)]: a new zero-filled array, or null. *)
Definition NewByteArray (len : Z) : M Z :=
  fun w =>
    if (len <? 0) || jvm_exhausted P w then (0, emit (NewByteArray_ev len 0) w)
    else
      let r := fresh_ref (dom (jshorts w) ∪ dom (jbytes w)) in
      (r, emit (NewByteArray_ev len r)
            (World (encoders w) (jshorts w)
                   (<[r := replicate (Z.to_nat len) x00]> (jbytes w))
                   (elems w) (trace w))).

(** [void SetByteArrayRegion(jbyteArray array, jsize start, jsize len,
    const jbyte *buf)]: copies [len] bytes of [buf]; a region outside the
    array raises [ArrayIndexOutOfBoundsException] and copies nothing. *)
Definition SetByteArrayRegion (array start len : Z) (buf : list byte) : M unit :=
  fun w =>
    let ev := SetByteArrayRegion_ev array start len buf in
    match jbytes w !! array with
    | Some old =>
        if (0 <=? start) && (0 <=? len) && (start + len <=? Z.of_nat (length old)) then
          (tt, emit ev
                 (World (encoders w) (jshorts w)
                        (<[array := take (Z.to_nat start) old
                                      ++ take (Z.to_nat len) buf
                                      ++ drop (Z.to_nat (start + len)) old]> (jbytes w))
                        (elems w) (trace w)))
        else (tt, emit ev w)
    | None => (tt, emit ev w)
    end.

(** ** android/src/main/cpp/opus_jni_wrapper.cpp *)

Definition LOG_TAG : string := "OpusJNI".
Definition LOGI (fmt : string) (args : list Z) : M unit :=
  __android_log_print ANDROID_LOG_INFO LOG_TAG fmt args.
Definition LOGE (fmt : string) (args : list Z) : M unit :=
  __android_log_print ANDROID_LOG_ERROR LOG_TAG fmt args.

Definition nullptr : Z := 0.

(** Returns the encoder pointer as [jlong], or [0] on failure. *)
Definition Java_expo_modules_opuslib_OpusEncoder_nativeCreate (sample_rate channels bitrate dred_duration_ms : Z) : M Z :=
  '(encoder, error) ← opus_encoder_create sample_rate channels (OPUS_APPLICATION_VOIP P);
  if negb (error =? OPUS_OK P) || (encoder =? 0) then
    LOGE "Failed to create Opus encoder: error %d" [error];;
    mret 0
  else
    LOGI "Opus encoder created: %dHz, %dch, %dkbps"
         [sample_rate; channels; bitrate ÷ 1000];;
    result ← opus_encoder_ctl encoder (OPUS_SET_BITRATE bitrate);
    (if negb (result =? OPUS_OK P) then
       LOGE "Failed to set bitrate: error %d" [result]
     else
       LOGI "Bitrate set to %d bps" [bitrate]);;
    (if 0 <? dred_duration_ms then
       result ← opus_encoder_ctl encoder (OPUS_SET_DRED_DURATION dred_duration_ms);
       if negb (result =? OPUS_OK P) then
         LOGE "DRED not available or failed to configure: error %d" [result];;
         LOGE "This may indicate Opus was not compiled with DRED support" []
       else
         LOGI "DRED enabled: %dms recovery duration" [dred_duration_ms]
     else mret tt);;
    mret encoder.

(** Returns the encoded bytes as a new [jbyteArray], or null on failure.
    [output] is the local [unsigned char output[4000]]; nothing reads it
    before [opus_encode] has written it. *)
Definition Java_expo_modules_opuslib_OpusEncoder_nativeEncode (encoder_ptr pcm_data frame_size : Z) : M Z :=
  let encoder := encoder_ptr in
  if encoder =? 0 then
    LOGE "Encoder pointer is null" [];;
    mret nullptr
  else
    pcm ← GetShortArrayElements pcm_data;
    if pcm =? 0 then
      LOGE "Failed to get PCM data" [];;
      mret nullptr
    else
      '(encoded_bytes, output) ← opus_encode encoder pcm frame_size 4000;
      ReleaseShortArrayElements pcm_data pcm JNI_ABORT;;
      if encoded_bytes <? 0 then
        LOGE "Encoding failed: error %d" [encoded_bytes];;
        mret nullptr
      else if encoded_bytes =? 0 then
        LOGE "Encoded 0 bytes (DTX or silence)" [];;
        mret nullptr
      else
        result ← NewByteArray encoded_bytes;
        if result =? 0 then
          LOGE "Failed to allocate byte array" [];;
          mret nullptr
        else
          SetByteArrayRegion result 0 encoded_bytes output;;
          mret result.

(** Destroys the encoder behind the pointer, if there is one. *)
Definition Java_expo_modules_opuslib_OpusEncoder_nativeDestroy (encoder_ptr : Z) : M unit :=
  let encoder := encoder_ptr in
  if negb (encoder =? 0) then
    opus_encoder_destroy encoder;;
    LOGI "Opus encoder destroyed" []
  else mret tt.

(** ** ios/opus_ctl_helpers.c *)

Definition opus_encoder_ctl_set_bitrate (enc bitrate : Z) : M Z :=
  opus_encoder_ctl enc (OPUS_SET_BITRATE bitrate).

Definition opus_encoder_ctl_set_dred_duration (enc duration_ms : Z) : M Z :=
  opus_encoder_ctl enc (OPUS_SET_DRED_DURATION duration_ms).

Definition opus_encoder_ctl_set_vbr (enc vbr : Z) : M Z :=
  opus_encoder_ctl enc (OPUS_SET_VBR vbr).

Definition opus_encoder_ctl_set_complexity (enc complexity : Z) : M Z :=
  opus_encoder_ctl enc (OPUS_SET_COMPLEXITY complexity).

Definition opus_encoder_ctl_set_inband_fec (enc fec : Z) : M Z :=
  opus_encoder_ctl enc (OPUS_SET_INBAND_FEC fec).

Definition opus_encoder_ctl_set_dtx (enc dtx : Z) : M Z :=
  opus_encoder_ctl enc (OPUS_SET_DTX dtx).

End Bindings.

(** The entry points, under the names the Java class declares them with. *)
Abbreviation nativeCreate := Java_expo_modules_opuslib_OpusEncoder_nativeCreate.
Abbreviation nativeEncode := Java_expo_modules_opuslib_OpusEncoder_nativeEncode.
Abbreviation nativeDestroy := Java_expo_modules_opuslib_OpusEncoder_nativeDestroy.


(** ** The control surface

    The six operations the helpers offer, by name, and the request code each
    one stands for. *)
Inductive control_op : Type :=
  | SetBitrate
  | SetDredDuration
  | SetVbr
  | SetComplexity
  | SetInbandFec
  | SetDtx.

Definition control_surface (P : platform) (op : control_op) : Z -> Z -> M Z :=
  match op with
  | SetBitrate => opus_encoder_ctl_set_bitrate P
  | SetDredDuration => opus_encoder_ctl_set_dred_duration P
  | SetVbr => opus_encoder_ctl_set_vbr P
  | SetComplexity => opus_encoder_ctl_set_complexity P
  | SetInbandFec => opus_encoder_ctl_set_inband_fec P
  | SetDtx => opus_encoder_ctl_set_dtx P
  end.

Definition control_code (op : control_op) : ctl_request :=
  match op with
  | SetBitrate => OPUS_SET_BITRATE_REQUEST
  | SetDredDuration => OPUS_SET_DRED_DURATION_REQUEST
  | SetVbr => OPUS_SET_VBR_REQUEST
  | SetComplexity => OPUS_SET_COMPLEXITY_REQUEST
  | SetInbandFec => OPUS_SET_INBAND_FEC_REQUEST
  | SetDtx => OPUS_SET_DTX_REQUEST
  end.

(** The specification's reading of a control operation: one invocation of
    the codec's control mechanism with the code and the value as given, whose
    status is the result. *)
Definition direct_control_call (P : platform) (code : ctl_request)
    (handle value : Z) : M Z :=
  fun w =>
    let status := codec_ctl P w handle code value in
    (status, emit (opus_encoder_ctl_ev handle code value status) w).

(** ** Observing a call *)

(** The foreign calls made by [c] when it is started in [w]. *)
Definition events_of {A : Type} (c : M A) (w : world) : list event :=
  drop (length (trace w)) (trace (c w).2).

(** Calls that hand a codec instance, or a request for one, to libopus. *)
Definition is_codec_call (e : event) : bool :=
  match e with
  | opus_encoder_create_ev _ _ _ _ _
  | opus_encoder_ctl_ev _ _ _ _
  | opus_encode_ev _ _ _ _ _ _
  | opus_encoder_destroy_ev _ => true
  | _ => false
  end.

Definition is_release_call (e : event) : bool :=
  match e with
  | opus_encoder_destroy_ev _ => true
  | _ => false
  end.

(** A release of PCM elements is one of [array] and discards the buffer. *)
Definition release_discards (array : Z) (e : event) : bool :=
  match e with
  | ReleaseShortArrayElements_ev a _ JNI_ABORT => a =? array
  | ReleaseShortArrayElements_ev _ _ _ => false
  | _ => true
  end.

(** The codec calls among the events, in order. *)
Definition codec_calls (evs : list event) : list event :=
  List.filter is_codec_call evs.

Definition is_error_log (e : event) : bool :=
  match e with
  | android_log_print_ev ANDROID_LOG_ERROR _ _ _ => true
  | _ => false
  end.

Definition is_info_log (e : event) : bool :=
  match e with
  | android_log_print_ev ANDROID_LOG_INFO _ _ _ => true
  | _ => false
  end.

(** The handle names a codec instance that exists. *)
Definition live (w : world) (handle : Z) : Prop :=
  handle ≠ 0 ∧ handle ∈ encoders w.

(** ** Runs

    The shapes a run of an entry point can take.  They are derived from the
    code by [nativeEncode_run] and [nativeCreate_run] below and are the
    case analysis behind the statements about the entry points. *)

(** What one run of [nativeEncode] can look like: the value returned, the
    byte arrays of the Java heap afterwards, and the foreign calls made, in
    order.  Everything else in the world is as before the call. *)
Variant encode_run (P : platform) (h pcm_data frame_size : Z) (w : world) :
    Z -> gmap Z (list byte) -> list event -> Prop :=
  | run_null_session :
      h = 0 ->
      encode_run P h pcm_data frame_size w nullptr (jbytes w)
        [android_log_print_ev ANDROID_LOG_ERROR LOG_TAG "Encoder pointer is null" []]
  | run_no_pcm :
      h ≠ 0 ->
      jshorts w !! pcm_data = None \/ jvm_exhausted P w = true ->
      encode_run P h pcm_data frame_size w nullptr (jbytes w)
        [GetShortArrayElements_ev pcm_data 0;
         android_log_print_ev ANDROID_LOG_ERROR LOG_TAG "Failed to get PCM data" []]
  | run_encode_error pcm samples n data :
      h ≠ 0 -> pcm ≠ 0 -> jshorts w !! pcm_data = Some samples -> n < 0 ->
      encode_run P h pcm_data frame_size w nullptr (jbytes w)
        [GetShortArrayElements_ev pcm_data pcm;
         opus_encode_ev h samples frame_size 4000 n data;
         ReleaseShortArrayElements_ev pcm_data pcm JNI_ABORT;
         android_log_print_ev ANDROID_LOG_ERROR LOG_TAG "Encoding failed: error %d" [n]]
  | run_no_packet pcm samples data :
      h ≠ 0 -> pcm ≠ 0 -> jshorts w !! pcm_data = Some samples ->
      encode_run P h pcm_data frame_size w nullptr (jbytes w)
        [GetShortArrayElements_ev pcm_data pcm;
         opus_encode_ev h samples frame_size 4000 0 data;
         ReleaseShortArrayElements_ev pcm_data pcm JNI_ABORT;
         android_log_print_ev ANDROID_LOG_ERROR LOG_TAG
           "Encoded 0 bytes (DTX or silence)" []]
  | run_no_array pcm samples n data :
      h ≠ 0 -> pcm ≠ 0 -> jshorts w !! pcm_data = Some samples -> 0 < n ->
      encode_run P h pcm_data frame_size w nullptr (jbytes w)
        [GetShortArrayElements_ev pcm_data pcm;
         opus_encode_ev h samples frame_size 4000 n data;
         ReleaseShortArrayElements_ev pcm_data pcm JNI_ABORT;
         NewByteArray_ev n 0;
         android_log_print_ev ANDROID_LOG_ERROR LOG_TAG
           "Failed to allocate byte array" []]
  | run_packet pcm samples n data r :
      h ≠ 0 -> pcm ≠ 0 -> jshorts w !! pcm_data = Some samples -> 0 < n ->
      r ≠ 0 -> jbytes w !! r = None -> jshorts w !! r = None ->
      encode_run P h pcm_data frame_size w r
        (<[r := take (Z.to_nat n) data]> (jbytes w))
        [GetShortArrayElements_ev pcm_data pcm;
         opus_encode_ev h samples frame_size 4000 n data;
         ReleaseShortArrayElements_ev pcm_data pcm JNI_ABORT;
         NewByteArray_ev n r;
         SetByteArrayRegion_ev r 0 n data].


(** The bitrate step of [nativeCreate]: one control call, then one log line
    that depends on its status. *)
Variant bitrate_step (P : platform) (st bitrate : Z) : list event -> Prop :=
  | bitrate_set :
      bitrate_step P st bitrate
        [opus_encoder_ctl_ev st OPUS_SET_BITRATE_REQUEST bitrate (OPUS_OK P);
         android_log_print_ev ANDROID_LOG_INFO LOG_TAG "Bitrate set to %d bps" [bitrate]]
  | bitrate_failed status :
      status ≠ OPUS_OK P ->
      bitrate_step P st bitrate
        [opus_encoder_ctl_ev st OPUS_SET_BITRATE_REQUEST bitrate status;
         android_log_print_ev ANDROID_LOG_ERROR LOG_TAG
           "Failed to set bitrate: error %d" [status]].

(** The DRED step of [nativeCreate]. *)
Variant dred_step (P : platform) (st dred_duration_ms : Z) : list event -> Prop :=
  | dred_skipped :
      dred_duration_ms <= 0 ->
      dred_step P st dred_duration_ms []
  | dred_enabled :
      0 < dred_duration_ms ->
      dred_step P st dred_duration_ms
        [opus_encoder_ctl_ev st OPUS_SET_DRED_DURATION_REQUEST dred_duration_ms (OPUS_OK P);
         android_log_print_ev ANDROID_LOG_INFO LOG_TAG
           "DRED enabled: %dms recovery duration" [dred_duration_ms]]
  | dred_failed status :
      0 < dred_duration_ms -> status ≠ OPUS_OK P ->
      dred_step P st dred_duration_ms
        [opus_encoder_ctl_ev st OPUS_SET_DRED_DURATION_REQUEST dred_duration_ms status;
         android_log_print_ev ANDROID_LOG_ERROR LOG_TAG
           "DRED not available or failed to configure: error %d" [status];
         android_log_print_ev ANDROID_LOG_ERROR LOG_TAG
           "This may indicate Opus was not compiled with DRED support" []].

(** What one run of [nativeCreate] can look like: the handle returned, the
    codec instances afterwards, and the foreign calls made. *)
Variant create_run (P : platform) (sample_rate channels bitrate dred_duration_ms : Z)
    (w : world) : Z -> gset Z -> list event -> Prop :=
  | run_create_failed st error :
      error ≠ OPUS_OK P \/ st = 0 ->
      create_run P sample_rate channels bitrate dred_duration_ms w 0
        (if st =? 0 then encoders w else {[st]} ∪ encoders w)
        [opus_encoder_create_ev sample_rate channels (OPUS_APPLICATION_VOIP P) st error;
         android_log_print_ev ANDROID_LOG_ERROR LOG_TAG
           "Failed to create Opus encoder: error %d" [error]]
  | run_created st bevs devs :
      st ≠ 0 ->
      bitrate_step P st bitrate bevs ->
      dred_step P st dred_duration_ms devs ->
      create_run P sample_rate channels bitrate dred_duration_ms w st
        ({[st]} ∪ encoders w)
        ([opus_encoder_create_ev sample_rate channels (OPUS_APPLICATION_VOIP P) st (OPUS_OK P);
          android_log_print_ev ANDROID_LOG_INFO LOG_TAG
            "Opus encoder created: %dHz, %dch, %dkbps"
            [sample_rate; channels; bitrate ÷ 1000]] ++ bevs ++ devs).

(** The ways a run of [nativeEncode] produces no packet, read off the
    foreign calls it made. *)
Variant encode_failure (h : Z) (evs : list event) : Prop :=
  | fail_null_session :
      h = 0 -> encode_failure h evs
  | fail_no_pcm array :
      GetShortArrayElements_ev array 0 ∈ evs -> encode_failure h evs
  | fail_encode_error st samples frame_size max_data_bytes n data :
      n < 0 ->
      opus_encode_ev st samples frame_size max_data_bytes n data ∈ evs ->
      encode_failure h evs
  | fail_no_packet st samples frame_size max_data_bytes data :
      opus_encode_ev st samples frame_size max_data_bytes 0 data ∈ evs ->
      encode_failure h evs
  | fail_no_array len :
      NewByteArray_ev len 0 ∈ evs -> encode_failure h evs.

(** ** Readings of the specification that the code is compared with *)


(** A destroy that follows a destroy of the same session releases nothing. *)
Definition second_destroy_is_noop (h : Z) (w : world) : Prop :=
  forall e,
    e ∈ events_of (nativeDestroy h) (nativeDestroy h w).2 ->
    is_release_call e = false.

(** Whenever the codec returned a positive [n], the caller gets an array of
    exactly the first [n] bytes of the scratch buffer. *)
Definition positive_return_yields_packet (P : platform)
    (h pcm_data frame_size : Z) (w : world) : Prop :=
  forall samples n data,
    0 < n ->
    opus_encode_ev h samples frame_size 4000 n data
      ∈ events_of (nativeEncode P h pcm_data frame_size) w ->
    let run := nativeEncode P h pcm_data frame_size w in
    run.1 ≠ nullptr /\
    jbytes run.2 !! run.1 = Some (take (Z.to_nat n) data) /\
    Z.of_nat (length (take (Z.to_nat n) data)) = n.

(** The DRED request is made exactly when the duration is positive. *)
Definition dred_requested_iff_positive (P : platform)
    (sample_rate channels bitrate dred_duration_ms : Z) (w : world) : Prop :=
  (exists st value status,
      opus_encoder_ctl_ev st OPUS_SET_DRED_DURATION_REQUEST value status
        ∈ events_of (nativeCreate P sample_rate channels bitrate dred_duration_ms) w)
  <-> 0 < dred_duration_ms.

(** ** Scenarios *)

(** A platform with [OPUS_OK = 0] and the VoIP profile [2048], as in
    libopus.  Its codec answers [opus_encoder_create] with [created],
    control requests with [ctl], and every frame with [encode_ret] over an
    output buffer of ones; its JVM fails the allocations [exhausted] picks. *)
Definition scenario (created : Z * Z) (ctl : ctl_request -> Z -> Z)
    (encode_ret : Z) (exhausted : world -> bool) : platform :=
  Platform 0 2048
    (fun _ _ _ _ => created)
    (fun _ _ request value => ctl request value)
    (fun _ _ _ _ max_data_bytes =>
       (encode_ret, replicate (Z.to_nat max_data_bytes) x01))
    exhausted.

(** A bitrate that is not positive is a bad argument ([-1]); the build has
    no DRED ([-5], unimplemented). *)
Definition build_without_dred (request : ctl_request) (value : Z) : Z :=
  match request with
  | OPUS_SET_BITRATE_REQUEST => if value <=? 0 then -1 else 0
  | OPUS_SET_DRED_DURATION_REQUEST => -5
  | _ => 0
  end.

Definition never (w : world) : bool := false.

(** The JVM runs out of memory right after the PCM buffer is released, that
    is, when the result array is requested. *)
Definition after_release (w : world) : bool :=
  match last (trace w) with
  | Some (ReleaseShortArrayElements_ev _ _ _) => true
  | _ => false
  end.

Definition speaking : platform := scenario (1, 0) build_without_dred 3 never.
Definition silent : platform := scenario (1, 0) build_without_dred 0 never.
Definition starved : platform := scenario (1, 0) build_without_dred 3 after_release.
Definition no_codec : platform := scenario (0, -1) build_without_dred 3 never.

(** A codec that reports an error and hands back an instance all the same. *)
Definition half_made : platform := scenario (5, -1) build_without_dred 3 never.

(** One 20 ms frame of silence at 16 kHz, held by the Java side as array [7]. *)
Definition boot : world :=
  World ∅ {[ 7 := replicate 320 0 ]} ∅ ∅ [].

(** The world after a session was created at 16 kHz, mono, 16 kbit/s. *)
Definition session (P : platform) : world :=
  (nativeCreate P 16000 1 16000 0 boot).2.

(** ** Facts about the monad and the foreign operations *)

(** Case analysis on the membership of an event in a list of events. *)
Ltac elem_cases :=
  repeat match goal with
    | H : _ ∈ [] |- _ => by apply elem_of_nil in H
    | H : _ ∈ _ :: _ |- _ => apply elem_of_cons in H as [H|H]
    | H : _ ∈ _ ++ _ |- _ => apply elem_of_app in H as [H|H]
    end.

Lemma fresh_ref_nonzero (used : gset Z) : fresh_ref used ≠ 0.
Proof.
  unfold fresh_ref. intros H.
  pose proof (is_fresh ({[0]} ∪ used)) as Hf. rewrite H in Hf. set_solver.
Qed.

Lemma fresh_ref_unused (used : gset Z) : fresh_ref used ∉ used.
Proof.
  unfold fresh_ref. pose proof (is_fresh ({[0]} ∪ used)) as Hf. set_solver.
Qed.

Lemma fresh_ref_eqb (used : gset Z) : (fresh_ref used =? 0) = false.
Proof. apply Z.eqb_neq, fresh_ref_nonzero. Qed.

Lemma elem_of_added (st : Z) (X : gset Z) : st ∈ {[st]} ∪ X.
Proof. apply elem_of_union_l, elem_of_singleton. reflexivity. Qed.

Lemma events_of_app {A : Type} (c : M A) (w : world) (evs : list event) :
  trace (c w).2 = trace w ++ evs -> events_of c w = evs.
Proof. unfold events_of. intros ->. apply drop_app_length. Qed.

Lemma nativeEncode_run (P : platform) (h pcm_data frame_size : Z) (w : world) :
  exists r jb evs,
    encode_run P h pcm_data frame_size w r jb evs /\
    nativeEncode P h pcm_data frame_size w =
      (r, World (encoders w) (jshorts w) jb (elems w) (trace w ++ evs)).
Proof.
  unfold nativeEncode, mbind, mret, M_bind, M_ret, LOGE, __android_log_print, emit.
  destruct (Z.eqb_spec h 0) as [Hh|Hh].
  { eexists _, _, _. split; [by apply run_null_session|done]. }
  unfold GetShortArrayElements, emit.
  destruct (jshorts w !! pcm_data) as [samples|] eqn:Harr; simpl;
    [destruct (jvm_exhausted P w) eqn:Hoom; simpl|].
  1,3: by eexists _, _, _; split; [apply run_no_pcm; auto|rewrite <- app_assoc].
  set (pcm := fresh_ref (dom (elems w))).
  assert (Hpcm : pcm ≠ 0) by apply fresh_ref_nonzero.
  assert (Hfree : elems w !! pcm = None)
    by apply not_elem_of_dom, fresh_ref_unused.
  rewrite (proj2 (Z.eqb_neq pcm 0) Hpcm).
  unfold opus_encode, emit. simpl. rewrite lookup_insert_eq. simpl.
  destruct (codec_encode P _ h samples frame_size 4000) as [n data].
  unfold ReleaseShortArrayElements, emit. simpl. rewrite lookup_insert_eq. simpl.
  rewrite delete_insert_eq, (delete_id _ _ Hfree), <- !app_assoc. simpl.
  destruct (Z.ltb_spec n 0) as [Hn|Hn].
  { eexists _, _, _. split; [by apply (run_encode_error _ _ _ _ _ pcm samples n data)|].
    simpl. by rewrite <- app_assoc. }
  destruct (Z.eqb_spec n 0) as [->|Hn0].
  { eexists _, _, _. split; [by apply (run_no_packet _ _ _ _ _ pcm samples data)|].
    simpl. by rewrite <- app_assoc. }
  unfold NewByteArray, emit. simpl.
  rewrite (proj2 (Z.ltb_ge n 0) Hn). simpl.
  match goal with |- context [jvm_exhausted P ?x] => destruct (jvm_exhausted P x) end.
  { simpl. eexists _, _, _. split; [apply (run_no_array _ _ _ _ _ pcm samples n data); auto; lia|].
    simpl. by rewrite <- !app_assoc. }
  set (r := fresh_ref (dom (jshorts w) ∪ dom (jbytes w))).
  assert (Hr : r ≠ 0) by apply fresh_ref_nonzero.
  assert (Hrf : r ∉ dom (jshorts w) ∪ dom (jbytes w)) by apply fresh_ref_unused.
  rewrite (proj2 (Z.eqb_neq r 0) Hr).
  unfold SetByteArrayRegion, emit. simpl. rewrite lookup_insert_eq.
  rewrite length_replicate, Z2Nat.id by lia.
  rewrite (proj2 (Z.leb_le 0 n) Hn), Z.leb_refl. simpl.
  rewrite insert_insert_eq, drop_replicate, Nat.sub_diag, app_nil_r.
  eexists _, _, _. split.
  - apply (run_packet _ _ _ _ _ pcm samples n data r); auto; try lia.
    + apply not_elem_of_dom. set_solver.
    + apply not_elem_of_dom. set_solver.
  - simpl. by rewrite <- !app_assoc.
Qed.

Lemma nativeCreate_run (P : platform) (sample_rate channels bitrate dred_duration_ms : Z)
    (w : world) :
  exists r enc evs,
    create_run P sample_rate channels bitrate dred_duration_ms w r enc evs /\
    nativeCreate P sample_rate channels bitrate dred_duration_ms w =
      (r, World enc (jshorts w) (jbytes w) (elems w) (trace w ++ evs)).
Proof.
  unfold nativeCreate, mbind, mret, M_bind, M_ret, LOGE, LOGI, __android_log_print,
    opus_encoder_create, opus_encoder_ctl, emit.
  destruct (codec_create P w sample_rate channels (OPUS_APPLICATION_VOIP P))
    as [st error].
  destruct (Z.eqb_spec error (OPUS_OK P)) as [->|Herr]; simpl.
  2:{ eexists _, _, _. split; [apply (run_create_failed _ _ _ _ _ _ st error); auto|].
      by rewrite <- app_assoc. }
  destruct (Z.eqb_spec st 0) as [->|Hst]; simpl.
  { eexists _, _, _. split; [apply (run_create_failed _ _ _ _ _ _ 0 (OPUS_OK P)); auto|].
    by rewrite <- app_assoc. }
  match goal with
  | |- context [codec_ctl P ?x st OPUS_SET_BITRATE_REQUEST bitrate] =>
      generalize (codec_ctl P x st OPUS_SET_BITRATE_REQUEST bitrate)
  end.
  intros s1.
  destruct (Z.eqb_spec s1 (OPUS_OK P)) as [->|Hs1]; simpl;
    (destruct (Z.ltb_spec 0 dred_duration_ms) as [Hd|Hd]; simpl;
     [ match goal with
       | |- context [codec_ctl P ?x st OPUS_SET_DRED_DURATION_REQUEST ?d] =>
           generalize (codec_ctl P x st OPUS_SET_DRED_DURATION_REQUEST d)
       end;
       intros s2; destruct (Z.eqb_spec s2 (OPUS_OK P)) as [->|Hs2]; simpl
     | ]);
    (eexists _, _, _; split; cycle 1;
     [ simpl; rewrite <- !app_assoc; simpl; reflexivity
     | apply (run_created _ _ _ _ _ _ st [_; _] _);
       [done | constructor; done | constructor; done] ]).
Qed.


Lemma nativeEncode_null (P : platform) (pcm_data frame_size : Z) (w : world) :
  nativeEncode P 0 pcm_data frame_size w =
    (nullptr,
     emit (android_log_print_ev ANDROID_LOG_ERROR LOG_TAG "Encoder pointer is null" []) w).
Proof. reflexivity. Qed.

(** Releasing with [JNI_ABORT] leaves the Java array alone, whatever the
    native buffer holds by then; the other two modes store the buffer. *)
Lemma release_abort_keeps_array (array p : Z) (w : world) :
  jshorts (ReleaseShortArrayElements array p JNI_ABORT w).2 = jshorts w.
Proof. unfold ReleaseShortArrayElements. by destruct (elems w !! p). Qed.

Lemma release_copy_back_stores_buffer (array p : Z) (w : world) (buf : list Z) :
  elems w !! p = Some buf ->
  jshorts (ReleaseShortArrayElements array p JNI_COPY_BACK w).2 !! array = Some buf.
Proof.
  intros Hbuf. unfold ReleaseShortArrayElements. rewrite Hbuf. simpl.
  apply lookup_insert_eq.
Qed.

(** With a non-null handle and the PCM elements at hand, encode passes the
    instance and the samples to the codec, with capacity [4000]. *)
Lemma encode_reaches_codec (P : platform) (h pcm_data frame_size : Z) (w : world)
    (samples : list Z) :
  h ≠ 0 ->
  jshorts w !! pcm_data = Some samples ->
  jvm_exhausted P w = false ->
  exists n data,
    opus_encode_ev h samples frame_size 4000 n data
      ∈ events_of (nativeEncode P h pcm_data frame_size) w.
Proof.
  intros Hh Harr Hmem.
  destruct (nativeEncode_run P h pcm_data frame_size w) as (r & jb & evs & Hrun & Heq).
  rewrite (events_of_app _ _ evs) by (by rewrite Heq).
  destruct Hrun as [|? [?|?]| | | |]; try congruence; simplify_eq;
    eexists _, _; apply list_elem_of_further, list_elem_of_here.
Qed.

(** X6.  A null result always comes from one of the failures: a null
    session handle, PCM elements not obtained, a negative or zero codec
    return, or a result array that could not be allocated.  A call in which
    none of them occurs returns an array. *)
Lemma null_result_is_failure (P : platform) (h pcm_data frame_size : Z) (w : world) :
  (nativeEncode P h pcm_data frame_size w).1 = nullptr ->
  encode_failure h (events_of (nativeEncode P h pcm_data frame_size) w).
Proof.
  destruct (nativeEncode_run P h pcm_data frame_size w) as (r & jb & evs & Hrun & Heq).
  rewrite (events_of_app _ _ evs) by (by rewrite Heq).
  rewrite Heq. simpl. intros Hnull.
  destruct Hrun.
  - by apply fail_null_session.
  - eapply fail_no_pcm, list_elem_of_here.
  - eapply fail_encode_error; [eassumption|].
    apply list_elem_of_further, list_elem_of_here.
  - eapply fail_no_packet. apply list_elem_of_further, list_elem_of_here.
  - eapply fail_no_array. do 3 apply list_elem_of_further. apply list_elem_of_here.
  - done.
Qed.

(** ** Encoding *)

(** C3.  An encode call with a null session handle returns the null result
    at once: its only foreign call is the log line, so no codec operation is
    invoked, and the codec instances and the heaps are as before. *)
Theorem encode_null_session (P : platform) (pcm_data frame_size : Z) (w : world) :
  let run := nativeEncode P 0 pcm_data frame_size w in
  run.1 = nullptr /\
  events_of (nativeEncode P 0 pcm_data frame_size) w =
    [android_log_print_ev ANDROID_LOG_ERROR LOG_TAG "Encoder pointer is null" []] /\
  Forall (fun e => is_codec_call e = false)
    (events_of (nativeEncode P 0 pcm_data frame_size) w) /\
  encoders run.2 = encoders w /\ jshorts run.2 = jshorts w /\
  jbytes run.2 = jbytes w /\ elems run.2 = elems w.
Proof.
  assert (Hev : events_of (nativeEncode P 0 pcm_data frame_size) w =
    [android_log_print_ev ANDROID_LOG_ERROR LOG_TAG "Encoder pointer is null" []]).
  { apply events_of_app. by rewrite nativeEncode_null. }
  cbv zeta. rewrite Hev, nativeEncode_null. simpl.
  repeat split. by repeat constructor.
Qed.

(** C9.  Every unsuccessful outcome of encode (null session handle, PCM
    input not obtained, negative codec return, zero codec return, result
    array not allocated) gives the caller the same null result. *)
Theorem encode_failures_all_null (P : platform) (h pcm_data frame_size : Z) (w : world) :
  encode_failure h (events_of (nativeEncode P h pcm_data frame_size) w) ->
  (nativeEncode P h pcm_data frame_size w).1 = nullptr.
Proof.
  destruct (nativeEncode_run P h pcm_data frame_size w) as (r & jb & evs & Hrun & Heq).
  rewrite (events_of_app _ _ evs) by (by rewrite Heq).
  rewrite Heq. simpl. intros Hfail.
  destruct Hrun; try reflexivity.
  exfalso. destruct Hfail; elem_cases; simplify_eq; lia.
Qed.

Lemma encode_failures_all_null_witness :
  encode_failure 1 (events_of (nativeEncode silent 1 7 320) (session silent)) /\
  (nativeEncode silent 1 7 320 (session silent)).1 = nullptr.
Proof.
  assert (H : encode_failure 1 (events_of (nativeEncode silent 1 7 320) (session silent))).
  { apply (fail_no_packet _ _ 1 (replicate 320 0) 320 4000 (replicate 4000 x01)).
    vm_compute. apply list_elem_of_further, list_elem_of_here. }
  split; [exact H | exact (encode_failures_all_null silent 1 7 320 (session silent) H)].
Defined.




(** C5, as stated, fails: the codec returns a packet of 3 bytes, the result
    array cannot be allocated, and the caller gets the null result. *)
Lemma positive_return_without_packet :
  ~ positive_return_yields_packet starved 1 7 320 (session starved).
Proof.
  intros H.
  destruct (H (replicate 320 0) 3 (replicate 4000 x01)) as [Hnull _].
  - lia.
  - vm_compute. apply list_elem_of_further, list_elem_of_here.
  - apply Hnull. vm_compute. reflexivity.
Qed.

(** C5, amended.  When the codec returned a positive [n] within the capacity
    it was given, that capacity is [4000], so [1 <= n <= 4000], and no native
    buffer outlives the call.  If the result array was allocated, encode
    returns a new Java array, referenced nowhere before the call, whose
    contents are the first [n] bytes of the scratch buffer and whose length
    is exactly [n].  If the result array could not be allocated, encode
    returns the null result and the Java byte arrays are as before. *)
Theorem encode_packet_is_copy (P : platform)
    (h pcm_data frame_size : Z) (w : world)
    (st : Z) (samples : list Z) (fs mx n : Z) (data : list byte) :
  opus_encode_ev st samples fs mx n data
    ∈ events_of (nativeEncode P h pcm_data frame_size) w ->
  0 < n ->
  n <= mx ->
  length data = Z.to_nat mx ->
  let run := nativeEncode P h pcm_data frame_size w in
  mx = 4000 /\ 1 <= n <= 4000 /\
  elems run.2 = elems w /\
  ((forall len,
       NewByteArray_ev len 0 ∉ events_of (nativeEncode P h pcm_data frame_size) w) ->
   run.1 ≠ nullptr /\
   jbytes w !! run.1 = None /\ jshorts w !! run.1 = None /\
   jbytes run.2 = <[run.1 := take (Z.to_nat n) data]> (jbytes w) /\
   Z.of_nat (length (take (Z.to_nat n) data)) = n) /\
  ((exists len,
       NewByteArray_ev len 0 ∈ events_of (nativeEncode P h pcm_data frame_size) w) ->
   run.1 = nullptr /\ jbytes run.2 = jbytes w).
Proof.
  destruct (nativeEncode_run P h pcm_data frame_size w) as (r & jb & evs & Hrun & Heq).
  rewrite (events_of_app _ _ evs) by (by rewrite Heq).
  rewrite Heq. simpl. intros Hin Hn Hmx Hlen.
  destruct Hrun; elem_cases; simplify_eq; try lia.
  - split; [done|]. split; [lia|]. split; [done|]. split; [|done].
    intros Halloc. exfalso. eapply Halloc.
    do 3 apply list_elem_of_further. apply list_elem_of_here.
  - split; [done|]. split; [lia|]. split; [done|]. split.
    + intros _. repeat split; auto.
      rewrite length_take_le by lia. lia.
    + intros [len Hfail]. elem_cases; simplify_eq.
Qed.

Lemma encode_packet_is_copy_witness :
  (let run := nativeEncode speaking 1 7 320 (session speaking) in
   run.1 = 8 /\ jbytes run.2 !! 8 = Some [x01; x01; x01]) /\
  (let run := nativeEncode starved 1 7 320 (session starved) in
   run.1 = nullptr /\ jbytes run.2 = jbytes (session starved)).
Proof.
  split.
  - destruct (encode_packet_is_copy speaking 1 7 320 (session speaking)
                1 (replicate 320 0) 320 4000 3 (replicate 4000 x01))
      as (_ & _ & _ & Hpacket & _).
    + vm_compute. apply list_elem_of_further, list_elem_of_here.
    + lia.
    + lia.
    + vm_compute. reflexivity.
    + destruct Hpacket as (_ & _ & _ & Hheap & _).
      * intros len Hin. vm_compute in Hin.
        inversion Hin; subst; elem_cases; discriminate.
      * cbv zeta. rewrite Hheap. vm_compute. split; reflexivity.
  - destruct (encode_packet_is_copy starved 1 7 320 (session starved)
                1 (replicate 320 0) 320 4000 3 (replicate 4000 x01))
      as (_ & _ & _ & _ & Hnone).
    + vm_compute. apply list_elem_of_further, list_elem_of_here.
    + lia.
    + lia.
    + vm_compute. reflexivity.
    + apply Hnone. exists 3. vm_compute.
      do 3 apply list_elem_of_further. apply list_elem_of_here.
Defined.

(** C10.  An encode call leaves the caller's PCM array as it was: no Java
    short array changes, the native buffer the samples were read through is
    released without being copied back (mode [JNI_ABORT]) and is gone when
    the call returns. *)
Theorem encode_leaves_pcm_unchanged (P : platform)
    (h pcm_data frame_size : Z) (w : world) :
  let run := nativeEncode P h pcm_data frame_size w in
  jshorts run.2 !! pcm_data = jshorts w !! pcm_data /\
  jshorts run.2 = jshorts w /\
  elems run.2 = elems w /\
  Forall (fun e => release_discards pcm_data e = true)
    (events_of (nativeEncode P h pcm_data frame_size) w).
Proof.
  destruct (nativeEncode_run P h pcm_data frame_size w) as (r & jb & evs & Hrun & Heq).
  cbv zeta.
  rewrite (events_of_app _ _ evs) by (by rewrite Heq).
  rewrite Heq. simpl. repeat split.
  destruct Hrun; repeat constructor; simpl; apply Z.eqb_refl.
Qed.

(** ** Creation *)

(** C4.  When the codec instance is created and the bitrate request that
    follows fails, whatever the bitrate (it reaches the codec unchanged, also
    when it is zero or negative), create returns the handle of the live
    instance; the failure is logged and nothing is released. *)
Theorem create_survives_bitrate_failure (P : platform)
    (sample_rate channels bitrate dred_duration_ms : Z) (w : world)
    (Fs ch app st st' value status : Z) :
  opus_encoder_create_ev Fs ch app st (OPUS_OK P)
    ∈ events_of (nativeCreate P sample_rate channels bitrate dred_duration_ms) w ->
  st ≠ 0 ->
  opus_encoder_ctl_ev st' OPUS_SET_BITRATE_REQUEST value status
    ∈ events_of (nativeCreate P sample_rate channels bitrate dred_duration_ms) w ->
  status ≠ OPUS_OK P ->
  let run := nativeCreate P sample_rate channels bitrate dred_duration_ms w in
  run.1 = st /\ live run.2 run.1 /\
  st' = st /\ value = bitrate /\
  android_log_print_ev ANDROID_LOG_ERROR LOG_TAG "Failed to set bitrate: error %d" [status]
    ∈ events_of (nativeCreate P sample_rate channels bitrate dred_duration_ms) w /\
  Forall (fun e => is_release_call e = false)
    (events_of (nativeCreate P sample_rate channels bitrate dred_duration_ms) w) /\
  (forall pcm_data frame_size samples,
      jshorts run.2 !! pcm_data = Some samples ->
      jvm_exhausted P run.2 = false ->
      exists n data,
        opus_encode_ev run.1 samples frame_size 4000 n data
          ∈ events_of (nativeEncode P run.1 pcm_data frame_size) run.2).
Proof.
  destruct (nativeCreate_run P sample_rate channels bitrate dred_duration_ms w)
    as (r & enc & evs & Hrun & Heq).
  rewrite (events_of_app _ _ evs) by (by rewrite Heq).
  rewrite Heq. simpl. intros Hcreate Hst Hctl Hstatus.
  destruct Hrun as [st0 error Hfail|st0 bevs devs Hst0 Hb Hd].
  { elem_cases; simplify_eq. }
  destruct Hb, Hd; elem_cases; simplify_eq;
    (split_and!;
     first
       [ done
       | by split; [|apply elem_of_added]
       | by do 3 (apply elem_of_cons; right); apply list_elem_of_here
       | by repeat constructor
       | intros pcm_data frame_size samples Harr Hmem;
         apply encode_reaches_codec; [exact Hst | exact Harr | exact Hmem] ]).
Qed.

Lemma create_survives_bitrate_failure_witness :
  let run := nativeCreate speaking 16000 1 (-64000) 0 boot in
  run.1 = 1 /\ live run.2 run.1.
Proof.
  destruct (create_survives_bitrate_failure speaking 16000 1 (-64000) 0 boot
              16000 1 2048 1 1 (-64000) (-1))
    as (Hr & Hlive & _).
  - vm_compute. apply list_elem_of_here.
  - lia.
  - vm_compute. do 2 apply list_elem_of_further. apply list_elem_of_here.
  - vm_compute. discriminate.
  - split; [exact Hr | exact Hlive].
Defined.

(** C7.  When the codec reports an error or yields no instance, create
    returns the zero handle after the failed creation request and one log
    line: no control request is made, and an encode call with the handle
    returned gets the null result without any codec call. *)
Theorem create_failure_returns_zero (P : platform)
    (sample_rate channels bitrate dred_duration_ms : Z) (w : world)
    (Fs ch app st error : Z) :
  opus_encoder_create_ev Fs ch app st error
    ∈ events_of (nativeCreate P sample_rate channels bitrate dred_duration_ms) w ->
  error ≠ OPUS_OK P \/ st = 0 ->
  let run := nativeCreate P sample_rate channels bitrate dred_duration_ms w in
  run.1 = 0 /\
  ~ live run.2 run.1 /\
  events_of (nativeCreate P sample_rate channels bitrate dred_duration_ms) w =
    [opus_encoder_create_ev sample_rate channels (OPUS_APPLICATION_VOIP P) st error;
     android_log_print_ev ANDROID_LOG_ERROR LOG_TAG
       "Failed to create Opus encoder: error %d" [error]] /\
  (forall pcm_data frame_size,
      (nativeEncode P run.1 pcm_data frame_size run.2).1 = nullptr /\
      Forall (fun e => is_codec_call e = false)
        (events_of (nativeEncode P run.1 pcm_data frame_size) run.2)).
Proof.
  destruct (nativeCreate_run P sample_rate channels bitrate dred_duration_ms w)
    as (r & enc & evs & Hrun & Heq).
  rewrite (events_of_app _ _ evs) by (by rewrite Heq).
  rewrite Heq. simpl. intros Hcreate Hfail.
  destruct Hrun as [st0 error0 Hfail0|st0 bevs devs Hst0 Hb Hd].
  - elem_cases; simplify_eq.
    split; [done|]. split; [by intros [? _]|]. split; [done|].
    intros pcm_data frame_size. rewrite nativeEncode_null.
    split; [done|].
    erewrite events_of_app by reflexivity. by repeat constructor.
  - destruct Hb, Hd; elem_cases; simplify_eq; by destruct Hfail.
Qed.

Lemma create_failure_returns_zero_witness :
  (nativeCreate no_codec 44100 1 16000 100 boot).1 = 0.
Proof.
  apply (create_failure_returns_zero no_codec 44100 1 16000 100 boot
           44100 1 2048 0 (-1)).
  - vm_compute. apply list_elem_of_here.
  - left. vm_compute. discriminate.
Defined.

(** C6, as stated, fails: the duration is positive, creation fails, and no
    DRED request is made. *)
Lemma dred_not_requested_when_creation_fails :
  ~ dred_requested_iff_positive no_codec 16000 1 16000 100 boot.
Proof.
  intros [_ H]. destruct H as (st & value & status & Hin); [lia|].
  vm_compute in Hin. inversion Hin; subst; elem_cases; discriminate.
Qed.

(** C6, amended.  When the codec instance is created, the DRED request is
    made if and only if the duration is positive, with the duration as given
    and on the new instance; when the request fails, the failure has a log
    line of its own; in every case create returns the handle of the live
    instance.  When the creation fails, create returns [0] and no DRED
    request is made, whatever the duration. *)
Theorem dred_requested_iff_positive_when_created (P : platform)
    (sample_rate channels bitrate dred_duration_ms : Z) (w : world)
    (Fs ch app st error : Z) :
  opus_encoder_create_ev Fs ch app st error
    ∈ events_of (nativeCreate P sample_rate channels bitrate dred_duration_ms) w ->
  let run := nativeCreate P sample_rate channels bitrate dred_duration_ms w in
  (error = OPUS_OK P /\ st ≠ 0 ->
   dred_requested_iff_positive P sample_rate channels bitrate dred_duration_ms w /\
   (forall st' value status,
       opus_encoder_ctl_ev st' OPUS_SET_DRED_DURATION_REQUEST value status
         ∈ events_of (nativeCreate P sample_rate channels bitrate dred_duration_ms) w ->
       st' = st /\ value = dred_duration_ms /\
       (status ≠ OPUS_OK P ->
        android_log_print_ev ANDROID_LOG_ERROR LOG_TAG
          "DRED not available or failed to configure: error %d" [status]
          ∈ events_of (nativeCreate P sample_rate channels bitrate dred_duration_ms) w)) /\
   run.1 = st /\ live run.2 run.1 /\
   Forall (fun e => is_release_call e = false)
     (events_of (nativeCreate P sample_rate channels bitrate dred_duration_ms) w)) /\
  (error ≠ OPUS_OK P \/ st = 0 ->
   run.1 = 0 /\
   forall st' value status,
     opus_encoder_ctl_ev st' OPUS_SET_DRED_DURATION_REQUEST value status
       ∉ events_of (nativeCreate P sample_rate channels bitrate dred_duration_ms) w).
Proof.
  unfold dred_requested_iff_positive.
  destruct (nativeCreate_run P sample_rate channels bitrate dred_duration_ms w)
    as (r & enc & evs & Hrun & Heq).
  rewrite (events_of_app _ _ evs) by (by rewrite Heq).
  rewrite Heq. simpl. intros Hcreate.
  destruct Hrun as [st0 error0 Hfail|st0 bevs devs Hst0 Hb Hd].
  { elem_cases; simplify_eq. split.
    - intros [-> Hst]. by destruct Hfail.
    - intros _. split; [done|]. intros st' value status Hin. elem_cases; simplify_eq. }
  assert (Hsame : st0 = st /\ error = OPUS_OK P).
  { clear -Hcreate Hb Hd. destruct Hb, Hd; elem_cases; by simplify_eq. }
  destruct Hsame as [-> ->]. split; [|by intros [?|?]].
  intros _.
  split; [|split; [|split; [done|split; [split; [done|apply elem_of_added]|]]]].
  - split.
    + intros (st' & value & status & Hin).
      destruct Hb, Hd; elem_cases; simplify_eq; lia.
    + intros Hpos. destruct Hd; [lia| |]; eexists _, _, _;
        apply elem_of_cons; right; apply elem_of_cons; right;
        apply elem_of_app; right; apply list_elem_of_here.
  - intros st' value status Hin.
    destruct Hb, Hd; elem_cases; simplify_eq;
      (split; [done|split; [done|intros Hbad; try done]]);
      do 5 (apply elem_of_cons; right); apply list_elem_of_here.
  - destruct Hb, Hd; by repeat constructor.
Qed.

Lemma dred_requested_iff_positive_when_created_witness :
  (let run := nativeCreate speaking 16000 1 16000 100 boot in
   run.1 = 1 /\ live run.2 run.1 /\
   android_log_print_ev ANDROID_LOG_ERROR LOG_TAG
     "DRED not available or failed to configure: error %d" [-5]
     ∈ events_of (nativeCreate speaking 16000 1 16000 100) boot) /\
  ((nativeCreate no_codec 16000 1 16000 100 boot).1 = 0 /\
   forall st' value status,
     opus_encoder_ctl_ev st' OPUS_SET_DRED_DURATION_REQUEST value status
       ∉ events_of (nativeCreate no_codec 16000 1 16000 100) boot).
Proof.
  split.
  - destruct (dred_requested_iff_positive_when_created speaking 16000 1 16000 100 boot
                16000 1 2048 1 0)
      as [Hmade _].
    + vm_compute. apply list_elem_of_here.
    + destruct Hmade as (_ & Hreq & Hr & Hlive & _).
      * split; [reflexivity|lia].
      * split; [exact Hr|]. split; [exact Hlive|].
        apply (Hreq 1 100 (-5)).
        -- vm_compute. do 4 apply list_elem_of_further. apply list_elem_of_here.
        -- vm_compute. discriminate.
  - destruct (dred_requested_iff_positive_when_created no_codec 16000 1 16000 100 boot
                16000 1 2048 0 (-1))
      as [_ Hfailed].
    + vm_compute. apply list_elem_of_here.
    + apply Hfailed. left. vm_compute. discriminate.
Defined.

(** ** Destruction *)

(** C2, as stated, fails: the second destroy of a session hands the same
    instance to [opus_encoder_destroy] again. *)
Lemma second_destroy_releases_again :
  ~ second_destroy_is_noop 1 (session speaking).
Proof.
  intros H.
  assert (Hno : is_release_call (opus_encoder_destroy_ev 1) = false).
  { apply H. vm_compute. apply list_elem_of_here. }
  discriminate Hno.
Qed.

(** C2, amended.  A destroy call releases the codec instance, once, exactly
    when the handle it is given is non-null; with the null handle it does
    nothing at all.  The handle is passed by value and no state is kept
    about it, so a destroy call repeated with the same handle makes the same
    foreign calls as the first. *)
Theorem destroy_releases_iff_handle_non_null (h : Z) (w : world) :
  let run := nativeDestroy h w in
  events_of (nativeDestroy h) w =
    (if h =? 0 then []
     else [opus_encoder_destroy_ev h;
           android_log_print_ev ANDROID_LOG_INFO LOG_TAG "Opus encoder destroyed" []]) /\
  existsb is_release_call (events_of (nativeDestroy h) w) = negb (h =? 0) /\
  encoders run.2 = (if h =? 0 then encoders w else encoders w ∖ {[h]}) /\
  nativeDestroy 0 w = (tt, w) /\
  events_of (nativeDestroy h) run.2 = events_of (nativeDestroy h) w.
Proof.
  assert (Hev : forall w0, events_of (nativeDestroy h) w0 =
    (if h =? 0 then []
     else [opus_encoder_destroy_ev h;
           android_log_print_ev ANDROID_LOG_INFO LOG_TAG "Opus encoder destroyed" []])).
  { intros w0. unfold events_of, nativeDestroy.
    destruct (h =? 0); simpl.
    - apply drop_all.
    - rewrite <- app_assoc. apply drop_app_length. }
  cbv zeta. rewrite !Hev. repeat split.
  - by destruct (h =? 0).
  - unfold nativeDestroy. by destruct (h =? 0).
Qed.

(** ** The control surface *)

(** C8.  Each control operation is one direct control call: it equals, as a
    computation, a single invocation of the codec's control mechanism with
    the operation's request code and the value as given, so its only foreign
    call is that request and its result is the codec's status. *)
Theorem control_surface_is_direct_call (P : platform) (op : control_op)
    (handle value : Z) (w : world) :
  control_surface P op handle value w =
    direct_control_call P (control_code op) handle value w /\
  (control_surface P op handle value w).1 =
    codec_ctl P w handle (control_code op) value /\
  events_of (control_surface P op handle value) w =
    [opus_encoder_ctl_ev handle (control_code op) value
       (codec_ctl P w handle (control_code op) value)].
Proof.
  assert (Heq : control_surface P op handle value w =
                direct_control_call P (control_code op) handle value w)
    by (by destruct op).
  split; [exact Heq|]. split; [by rewrite Heq|].
  apply events_of_app. by rewrite Heq.
Qed.

(** ** Further properties of the entry points *)

(** *** Creation *)

(** X1.  The codec calls of a create call, in order: one creation request
    with the sample rate and the channel count as given and the VoIP
    profile; then, only when that gave an instance without error, one bitrate
    request on the new instance with the bitrate as given; then, only when
    the duration is positive, one DRED request with the duration as given.
    The handle returned is [0] in the first case and the instance in the
    second. *)
Theorem create_codec_calls_in_order (P : platform)
    (sample_rate channels bitrate dred_duration_ms : Z) (w : world) :
  let run := nativeCreate P sample_rate channels bitrate dred_duration_ms w in
  let calls :=
    codec_calls (events_of (nativeCreate P sample_rate channels bitrate dred_duration_ms) w) in
  exists st error s1 s2,
    (run.1 = 0 /\ (error ≠ OPUS_OK P \/ st = 0) /\
     calls =
       [opus_encoder_create_ev sample_rate channels (OPUS_APPLICATION_VOIP P) st error])
    \/
    (run.1 = st /\ st ≠ 0 /\ error = OPUS_OK P /\
     calls =
       [opus_encoder_create_ev sample_rate channels (OPUS_APPLICATION_VOIP P) st error;
        opus_encoder_ctl_ev st OPUS_SET_BITRATE_REQUEST bitrate s1]
       ++ (if 0 <? dred_duration_ms
           then [opus_encoder_ctl_ev st OPUS_SET_DRED_DURATION_REQUEST dred_duration_ms s2]
           else [])).
Proof.
  destruct (nativeCreate_run P sample_rate channels bitrate dred_duration_ms w)
    as (r & enc & evs & Hrun & Heq).
  cbv zeta. rewrite (events_of_app _ _ evs) by (by rewrite Heq).
  rewrite Heq. simpl.
  destruct Hrun as [st error Hfail|st bevs devs Hst Hb Hd].
  { exists st, error, 0, 0. left. by repeat split. }
  destruct Hb as [|s1 Hs1].
  - destruct Hd as [Hle|Hpos|s2 Hpos Hs2].
    + exists st, (OPUS_OK P), (OPUS_OK P), 0. right.
      rewrite (proj2 (Z.ltb_ge 0 dred_duration_ms) Hle). by repeat split.
    + exists st, (OPUS_OK P), (OPUS_OK P), (OPUS_OK P). right.
      rewrite (proj2 (Z.ltb_lt 0 dred_duration_ms) Hpos). by repeat split.
    + exists st, (OPUS_OK P), (OPUS_OK P), s2. right.
      rewrite (proj2 (Z.ltb_lt 0 dred_duration_ms) Hpos). by repeat split.
  - destruct Hd as [Hle|Hpos|s2 Hpos Hs2].
    + exists st, (OPUS_OK P), s1, 0. right.
      rewrite (proj2 (Z.ltb_ge 0 dred_duration_ms) Hle). by repeat split.
    + exists st, (OPUS_OK P), s1, (OPUS_OK P). right.
      rewrite (proj2 (Z.ltb_lt 0 dred_duration_ms) Hpos). by repeat split.
    + exists st, (OPUS_OK P), s1, s2. right.
      rewrite (proj2 (Z.ltb_lt 0 dred_duration_ms) Hpos). by repeat split.
Qed.

(** X2.  When the codec reports an error and hands back an instance all the
    same, create returns [0] and releases nothing: the instance stays
    allocated, and the caller has no handle to it. *)
Theorem create_failure_keeps_instance (P : platform)
    (sample_rate channels bitrate dred_duration_ms : Z) (w : world)
    (Fs ch app st error : Z) :
  opus_encoder_create_ev Fs ch app st error
    ∈ events_of (nativeCreate P sample_rate channels bitrate dred_duration_ms) w ->
  error ≠ OPUS_OK P ->
  st ≠ 0 ->
  let run := nativeCreate P sample_rate channels bitrate dred_duration_ms w in
  run.1 = 0 /\ st ∈ encoders run.2 /\
  Forall (fun e => is_release_call e = false)
    (events_of (nativeCreate P sample_rate channels bitrate dred_duration_ms) w).
Proof.
  destruct (nativeCreate_run P sample_rate channels bitrate dred_duration_ms w)
    as (r & enc & evs & Hrun & Heq).
  rewrite (events_of_app _ _ evs) by (by rewrite Heq).
  rewrite Heq. simpl. intros Hcreate Herr Hst.
  destruct Hrun as [st0 error0 Hfail|st0 bevs devs Hst0 Hb Hd].
  - elem_cases; simplify_eq. split; [done|]. split; [|by repeat constructor].
    match goal with
    | Hne : ?x ≠ 0 |- context [?x =? 0] => rewrite (proj2 (Z.eqb_neq x 0) Hne)
    end.
    apply elem_of_added.
  - destruct Hb, Hd; elem_cases; simplify_eq.
Qed.

Lemma create_failure_keeps_instance_witness :
  let run := nativeCreate half_made 16000 1 16000 0 boot in
  run.1 = 0 /\ 5 ∈ encoders run.2.
Proof.
  destruct (create_failure_keeps_instance half_made 16000 1 16000 0 boot
              16000 1 2048 5 (-1))
    as (Hr & Hin & _).
  - vm_compute. apply list_elem_of_here.
  - vm_compute. discriminate.
  - lia.
  - split; [exact Hr | exact Hin].
Defined.

(** X3.  A create call destroys no codec instance and leaves the Java heap
    and the native buffers alone: every instance that existed still exists,
    and no release call is made. *)
Theorem create_keeps_sessions_and_heap (P : platform)
    (sample_rate channels bitrate dred_duration_ms : Z) (w : world) :
  let run := nativeCreate P sample_rate channels bitrate dred_duration_ms w in
  encoders w ⊆ encoders run.2 /\
  jshorts run.2 = jshorts w /\ jbytes run.2 = jbytes w /\ elems run.2 = elems w /\
  Forall (fun e => is_release_call e = false)
    (events_of (nativeCreate P sample_rate channels bitrate dred_duration_ms) w).
Proof.
  destruct (nativeCreate_run P sample_rate channels bitrate dred_duration_ms w)
    as (r & enc & evs & Hrun & Heq).
  cbv zeta. rewrite (events_of_app _ _ evs) by (by rewrite Heq).
  rewrite Heq. simpl.
  destruct Hrun as [st error Hfail|st bevs devs Hst Hb Hd].
  - split; [destruct (st =? 0); [reflexivity|apply union_subseteq_r]|].
    by repeat constructor.
  - split; [apply union_subseteq_r|]. destruct Hb, Hd; by repeat constructor.
Qed.

(** *** Encoding *)

(** X4.  An encode call makes at most one codec call, and it is
    [opus_encode] on the handle given, over the samples the caller's array
    holds, with the frame size as given (unchecked) and the capacity [4000];
    encode never creates, configures or destroys an instance. *)
Theorem encode_codec_call (P : platform) (h pcm_data frame_size : Z) (w : world) :
  let calls := codec_calls (events_of (nativeEncode P h pcm_data frame_size) w) in
  calls = [] \/
  exists samples n data,
    h ≠ 0 /\ jshorts w !! pcm_data = Some samples /\
    calls = [opus_encode_ev h samples frame_size 4000 n data].
Proof.
  destruct (nativeEncode_run P h pcm_data frame_size w) as (r & jb & evs & Hrun & Heq).
  cbv zeta. rewrite (events_of_app _ _ evs) by (by rewrite Heq).
  destruct Hrun; [by left|by left|right..]; eexists _, _, _; by repeat split.
Qed.

(** X5.  An encode call creates and destroys no codec instance, and every
    byte array the Java heap held before the call is still there with the
    same contents: a packet never overwrites an existing array. *)
Theorem encode_keeps_sessions_and_arrays (P : platform)
    (h pcm_data frame_size : Z) (w : world) :
  let run := nativeEncode P h pcm_data frame_size w in
  encoders run.2 = encoders w /\ jbytes w ⊆ jbytes run.2.
Proof.
  destruct (nativeEncode_run P h pcm_data frame_size w) as (r & jb & evs & Hrun & Heq).
  cbv zeta. rewrite Heq. simpl. split; [done|].
  destruct Hrun; try reflexivity. by apply insert_subseteq.
Qed.

Lemma null_result_is_failure_witness :
  (nativeEncode starved 1 7 320 (session starved)).1 = nullptr /\
  encode_failure 1 (events_of (nativeEncode starved 1 7 320) (session starved)).
Proof.
  assert (H : (nativeEncode starved 1 7 320 (session starved)).1 = nullptr)
    by (vm_compute; reflexivity).
  split; [exact H | exact (null_result_is_failure starved 1 7 320 (session starved) H)].
Defined.

(** X7.  An encode call logs at error priority exactly when it returns the
    null result, and never logs at info priority: a packet is returned
    silently, every failure leaves a line. *)
Theorem encode_logs_error_iff_null (P : platform) (h pcm_data frame_size : Z) (w : world) :
  existsb is_error_log (events_of (nativeEncode P h pcm_data frame_size) w) =
    ((nativeEncode P h pcm_data frame_size w).1 =? nullptr) /\
  existsb is_info_log (events_of (nativeEncode P h pcm_data frame_size) w) = false.
Proof.
  destruct (nativeEncode_run P h pcm_data frame_size w) as (r & jb & evs & Hrun & Heq).
  rewrite (events_of_app _ _ evs) by (by rewrite Heq).
  rewrite Heq. simpl.
  destruct Hrun; try done.
  split; [|done]. simpl. symmetry. by apply Z.eqb_neq.
Qed.

(** X8.  A packet outlives later encode calls: when an encode call has
    returned an array, whatever encode call follows returns another
    reference (or null) and leaves the contents of that array as they were. *)
Theorem later_encode_keeps_packet (P : platform)
    (h1 pcm1 fs1 h2 pcm2 fs2 : Z) (w : world) :
  let run1 := nativeEncode P h1 pcm1 fs1 w in
  let run2 := nativeEncode P h2 pcm2 fs2 run1.2 in
  run1.1 ≠ nullptr ->
  is_Some (jbytes run1.2 !! run1.1) /\
  run2.1 ≠ run1.1 /\
  jbytes run2.2 !! run1.1 = jbytes run1.2 !! run1.1.
Proof.
  destruct (nativeEncode_run P h1 pcm1 fs1 w) as (r1 & jb1 & evs1 & Hrun1 & Heq1).
  cbv zeta. rewrite Heq1. simpl.
  match goal with
  | |- context [nativeEncode P h2 pcm2 fs2 ?w1] =>
      destruct (nativeEncode_run P h2 pcm2 fs2 w1) as (r2 & jb2 & evs2 & Hrun2 & Heq2);
      rewrite Heq2
  end.
  simpl. intros Hr1.
  assert (Hheld : is_Some (jb1 !! r1)).
  { destruct Hrun1; try done. rewrite lookup_insert_eq. by eexists. }
  split; [exact Hheld|].
  simpl in Hrun2.
  destruct Hrun2 as [| | | | |pcm samples n data r2 ? ? ? ? ? Hfresh ?]; try done.
  assert (Hne : r2 ≠ r1).
  { intros ->. simpl in Hfresh. rewrite Hfresh in Hheld. by destruct Hheld. }
  split; [exact Hne|]. by rewrite lookup_insert_ne.
Qed.

Lemma later_encode_keeps_packet_witness :
  let run1 := nativeEncode speaking 1 7 320 (session speaking) in
  let run2 := nativeEncode speaking 1 7 320 run1.2 in
  run2.1 ≠ run1.1 /\ jbytes run2.2 !! run1.1 = jbytes run1.2 !! run1.1.
Proof.
  destruct (later_encode_keeps_packet speaking 1 7 320 1 7 320 (session speaking))
    as (_ & Hne & Hsame).
  - vm_compute. discriminate.
  - split; [exact Hne | exact Hsame].
Defined.

(** X9.  When the request for the PCM elements is answered with null,
    encode returns the null result after that request and one log line: the
    codec is not called and nothing but the trace changes. *)
Theorem encode_without_pcm (P : platform) (h pcm_data frame_size : Z) (w : world)
    (array : Z) :
  GetShortArrayElements_ev array 0
    ∈ events_of (nativeEncode P h pcm_data frame_size) w ->
  nativeEncode P h pcm_data frame_size w =
    (nullptr,
     emit (android_log_print_ev ANDROID_LOG_ERROR LOG_TAG "Failed to get PCM data" [])
       (emit (GetShortArrayElements_ev pcm_data 0) w)) /\
  codec_calls (events_of (nativeEncode P h pcm_data frame_size) w) = [].
Proof.
  destruct (nativeEncode_run P h pcm_data frame_size w) as (r & jb & evs & Hrun & Heq).
  rewrite (events_of_app _ _ evs) by (by rewrite Heq).
  rewrite Heq. intros Hin.
  destruct Hrun; elem_cases; simplify_eq.
  split; [|done]. unfold emit. simpl. by rewrite <- app_assoc.
Qed.

Lemma encode_without_pcm_witness :
  (nativeEncode speaking 1 9 320 (session speaking)).1 = nullptr.
Proof.
  destruct (encode_without_pcm speaking 1 9 320 (session speaking) 9) as [Heq _].
  - vm_compute. apply list_elem_of_here.
  - rewrite Heq. reflexivity.
Defined.

(** *** Destruction and the life of a handle *)

(** X10.  A destroyed handle is not recognised: after a destroy call with a
    non-null handle the instance no longer exists, yet an encode call with
    the same handle still passes it to the codec, the null check being the
    only guard. *)
Theorem encode_after_destroy_reaches_codec (P : platform)
    (h pcm_data frame_size : Z) (w : world) (samples : list Z) :
  h ≠ 0 ->
  jshorts w !! pcm_data = Some samples ->
  jvm_exhausted P (nativeDestroy h w).2 = false ->
  ~ live (nativeDestroy h w).2 h /\
  exists n data,
    opus_encode_ev h samples frame_size 4000 n data
      ∈ events_of (nativeEncode P h pcm_data frame_size) (nativeDestroy h w).2.
Proof.
  intros Hh Harr Hmem. split.
  - unfold nativeDestroy. rewrite (proj2 (Z.eqb_neq h 0) Hh). simpl.
    intros [_ Hin]. apply elem_of_difference in Hin as [_ Hin].
    apply Hin, elem_of_singleton. reflexivity.
  - apply encode_reaches_codec; [exact Hh| |exact Hmem].
    unfold nativeDestroy. by destruct (h =? 0).
Qed.

Lemma encode_after_destroy_reaches_codec_witness :
  ~ live (nativeDestroy 1 (session speaking)).2 1 /\
  exists n data,
    opus_encode_ev 1 (replicate 320 0) 320 4000 n data
      ∈ events_of (nativeEncode speaking 1 7 320) (nativeDestroy 1 (session speaking)).2.
Proof.
  apply (encode_after_destroy_reaches_codec speaking 1 7 320 (session speaking)).
  - lia.
  - vm_compute. reflexivity.
  - vm_compute. reflexivity.
Defined.

(** X11.  Create followed by destroy leaks nothing: when create returns a
    non-zero handle for an instance that did not exist before, destroying
    that handle leaves exactly the instances that existed before the create
    call, and the Java heap and the native buffers as they were. *)
Theorem create_then_destroy_restores (P : platform)
    (sample_rate channels bitrate dred_duration_ms : Z) (w : world) :
  let run := nativeCreate P sample_rate channels bitrate dred_duration_ms w in
  let after := (nativeDestroy run.1 run.2).2 in
  run.1 ≠ 0 ->
  run.1 ∉ encoders w ->
  encoders after = encoders w /\
  jshorts after = jshorts w /\ jbytes after = jbytes w /\ elems after = elems w /\
  opus_encoder_destroy_ev run.1 ∈ events_of (nativeDestroy run.1) run.2.
Proof.
  destruct (nativeCreate_run P sample_rate channels bitrate dred_duration_ms w)
    as (r & enc & evs & Hrun & Heq).
  cbv zeta. rewrite Heq. simpl. intros Hr Hnew.
  assert (Henc : enc = {[r]} ∪ encoders w) by (by destruct Hrun).
  subst enc. unfold events_of, nativeDestroy.
  rewrite (proj2 (Z.eqb_neq r 0) Hr). simpl.
  split; [|repeat split].
  - apply set_eq. intros x.
    rewrite elem_of_difference, elem_of_union, !elem_of_singleton.
    split; [intros [[->|Hx] Hne]; done|].
    intros Hx. split; [by right|]. by intros ->.
  - rewrite <- app_assoc, drop_app_length. apply list_elem_of_here.
Qed.

Lemma create_then_destroy_restores_witness :
  encoders (nativeDestroy (nativeCreate speaking 48000 2 24000 100 boot).1
              (nativeCreate speaking 48000 2 24000 100 boot).2).2 = encoders boot.
Proof.
  destruct (create_then_destroy_restores speaking 48000 2 24000 100 boot) as [Henc _].
  - vm_compute. discriminate.
  - change (encoders boot) with (∅ : gset Z). apply not_elem_of_empty.
  - exact Henc.
Defined.

(** X12.  A destroy call concerns one session only: any other live handle
    is still live afterwards, the handle given is not, and the Java heap and
    the native buffers are untouched. *)
Theorem destroy_leaves_other_sessions (h h' : Z) (w : world) :
  live w h' ->
  h' ≠ h ->
  let after := (nativeDestroy h w).2 in
  live after h' /\ ~ live after h /\
  jshorts after = jshorts w /\ jbytes after = jbytes w /\ elems after = elems w.
Proof.
  intros [Hnz Hin] Hne. cbv zeta. unfold nativeDestroy, live.
  destruct (Z.eqb_spec h 0) as [->|Hh]; simpl.
  - repeat split; try done. by intros [? _].
  - repeat split; try done.
    + apply elem_of_difference. split; [done|]. by rewrite elem_of_singleton.
    + intros [_ Hbad]. apply elem_of_difference in Hbad as [_ Hbad].
      apply Hbad, elem_of_singleton. reflexivity.
Qed.

Lemma destroy_leaves_other_sessions_witness :
  live (nativeDestroy 2 (World {[1; 2]} ∅ ∅ ∅ [])).2 1 /\
  ~ live (nativeDestroy 2 (World {[1; 2]} ∅ ∅ ∅ [])).2 2.
Proof.
  destruct (destroy_leaves_other_sessions 2 1 (World {[1; 2]} ∅ ∅ ∅ []))
    as (Hlive & Hdead & _).
  - split; [lia|]. apply elem_of_union_l, elem_of_singleton. reflexivity.
  - lia.
  - split; [exact Hlive | exact Hdead].
Defined.
